(** * keras_mixed_sequence: VectorSequence

    A shallow embedding of [keras_mixed_sequence/utils/vector_sequence.py]
    and the properties of its batching and per-epoch shuffling.

    Python integers are [Z]; a one-dimensional numpy array is a [list];
    a Python exception is the [Raise] alternative of [result]; the methods
    of the object are computations in a small state-and-exception monad
    over the record of the object's attributes. *)

From Stdlib Require Import String Bool ZArith List Permutation Lia.
From Stdlib Require DecimalString.
Import ListNotations.
Open Scope Z_scope.

Set Implicit Arguments.

(** ** Python values *)

(** The exceptions the code can raise: [ValueError] is raised by
    [__getitem__] (and by numpy when a seed is refused), [IndexError] by an
    array access out of bounds. *)
Inductive exn : Type :=
| ValueError (msg : string)
| IndexError (msg : string).

Inductive result (X : Type) : Type :=
| Ok (x : X)
| Raise (e : exn).

Arguments Ok {X} x.
Arguments Raise {X} e.

(** [str(i)] of a Python int, what [format] inserts for an integer. *)
Definition str (i : Z) : string :=
  DecimalString.NilZero.string_of_int (Z.to_int i).

(** Normalisation of one bound of a slice against a length [n], as
    [slice.indices] does for step 1: negative bounds count from the end,
    and the result is clamped into [0, n]. *)
Definition slice_bound (n i : Z) : Z :=
  if i <? 0 then Z.max 0 (i + n) else Z.min i n.

(** [l[start:stop]] *)
Definition py_slice {A : Type} (l : list A) (start stop : Z) : list A :=
  let n := Z.of_nat (length l) in
  let lo := slice_bound n start in
  let hi := slice_bound n stop in
  firstn (Z.to_nat (hi - lo)) (skipn (Z.to_nat lo) l).

(** [np.arange(n)] *)
Definition arange (n : Z) : list nat := seq 0 (Z.to_nat n).

(** [v[indices]] for an integer index array: every index is looked up, and
    an index past the end raises. *)
Fixpoint fancy_index {A : Type} (v : list A) (indices : list nat)
  : result (list A) :=
  match indices with
  | [] => Ok []
  | i :: rest =>
      match nth_error v i with
      | None => Raise (IndexError "index out of bounds")
      | Some x =>
          match fancy_index v rest with
          | Ok l => Ok (x :: l)
          | Raise e => Raise e
          end
      end
  end.

(** ** The seeded generator

    [np.random.RandomState(seed=...)] and its [shuffle] come from numpy.
    The development is parametric in them: [RandomState] may refuse a
    seed, and [shuffle g l] is the content of the array [l] after
    [g.shuffle(l)]. *)
Class RandomGen : Type := {
  rng : Type;
  RandomState : Z -> result rng;
  shuffle : rng -> list nat -> list nat
}.

(** What is assumed of the generator: shuffling rearranges. *)
Class ShufflePermutes (G : RandomGen) : Prop :=
  shuffle_Permutation : forall (g : rng) (l : list nat),
    Permutation l (shuffle g l).

(** ** State and exceptions *)

Definition M (St X : Type) : Type := St -> result X * St.

Definition ret {St X : Type} (x : X) : M St X := fun s => (Ok x, s).

Definition bind {St X Y : Type} (m : M St X) (k : X -> M St Y) : M St Y :=
  fun s =>
    match m s with
    | (Ok x, s') => k x s'
    | (Raise e, s') => (Raise e, s')
    end.

Definition raise {St X : Type} (e : exn) : M St X := fun s => (Raise e, s).

Definition read {St X : Type} (f : St -> X) : M St X := fun s => (Ok (f s), s).

Definition modify {St : Type} (f : St -> St) : M St unit :=
  fun s => (Ok tt, f s).

Definition lift {St X : Type} (r : result X) : M St X := fun s => (r, s).

Declare Scope monad_scope.
Delimit Scope monad_scope with monad.
Notation "x <- m ;; k" := (bind m (fun x => k))
  (at level 61, m at next level, right associativity) : monad_scope.
Notation "m ;; k" := (bind m (fun _ => k))
  (at level 61, right associativity) : monad_scope.

(** ** The object *)

Section VectorSequence.

Variable A : Type.

(** The attributes of a [VectorSequence]: the three of the base class
    [Sequence] and the three set by [VectorSequence.__init__]. *)
Record VectorSequence : Type := mkVectorSequence {
  _samples_number : Z;
  _batch_size : Z;
  _elapsed_epochs : Z;
  _seed : Z;
  _vector : list A;
  _shuffled : list A
}.

Definition set_elapsed_epochs (e : Z) (s : VectorSequence) : VectorSequence :=
  mkVectorSequence (_samples_number s) (_batch_size s) e
                   (_seed s) (_vector s) (_shuffled s).

Definition set_shuffled (l : list A) (s : VectorSequence) : VectorSequence :=
  mkVectorSequence (_samples_number s) (_batch_size s) (_elapsed_epochs s)
                   (_seed s) (_vector s) l.

(** *** The base class [Sequence] *)

(** Modelled from the spec: the base class [Sequence] ([sequence.py]) is
    not among the sources. The spec has it provide [samples_number] (= N,
    read-only) and [batch_size] (= B, read-only). *)
Definition samples_number : M VectorSequence Z := read _samples_number.

(** Modelled from the spec: [batch_size] of the base class, read-only. *)
Definition batch_size : M VectorSequence Z := read _batch_size.

(** Modelled from the spec: the ceiling of [n / b], for [b <> 0]. *)
Definition ceil_div (n b : Z) : Z := - ((- n) / b).

(** Modelled from the spec: [steps_per_epoch] of the base class,
    "computed as ceil(N/B)"; the spec has [B > 0]. *)
Definition steps_per_epoch : M VectorSequence Z :=
  (n <- samples_number ;;
   b <- batch_size ;;
   ret (ceil_div n b))%monad.

(** Modelled from the spec: [Sequence.on_epoch_end], the hook of the base
    class, which "increments the elapsed-epoch counter". *)
Definition Sequence_on_epoch_end : M VectorSequence unit :=
  modify (fun s => set_elapsed_epochs (_elapsed_epochs s + 1) s).

(** *** [VectorSequence] *)

(** [VectorSequence.__init__(vector, batch_size, seed, elapsed_epochs)]:
    the base constructor receives [len(vector)], [batch_size] and
    [elapsed_epochs], which it keeps as the spec has it (the number of
    samples, the batch size and the elapsed-epoch counter of the base
    interface); [_shuffled] is a copy of the vector. The array is a value
    here: the caller is taken not to write into it afterwards. *)
Definition __init__ (vector : list A) (batch_size seed elapsed_epochs : Z)
  : VectorSequence :=
  mkVectorSequence (Z.of_nat (length vector)) batch_size elapsed_epochs
                   seed vector vector.

Context {G : RandomGen}.

(** [VectorSequence.on_epoch_end] *)
Definition on_epoch_end : M VectorSequence unit :=
  (Sequence_on_epoch_end ;;
   seed <- read _seed ;;
   elapsed <- read _elapsed_epochs ;;
   state <- lift (RandomState (seed + elapsed)) ;;
   n <- samples_number ;;
   let indices := shuffle state (arange n) in
   vector <- read _vector ;;
   shuffled <- lift (fancy_index vector indices) ;;
   modify (set_shuffled shuffled))%monad.

(** The message of the [ValueError] of [__getitem__]. *)
Definition getitem_message (idx steps : Z) : string :=
  ("Given index " ++ str idx ++ " is greater than the number "
   ++ "of steps per epoch of this sequence " ++ str steps ++ ".")%string.

(** [VectorSequence.__getitem__(idx)], the [get_batch] of the spec. *)
Definition __getitem__ (idx : Z) : M VectorSequence (list A) :=
  (steps <- steps_per_epoch ;;
   if idx >=? steps
   then raise (ValueError (getitem_message idx steps))
   else
     b <- batch_size ;;
     shuffled <- read _shuffled ;;
     ret (py_slice shuffled (idx * b) ((idx + 1) * b)))%monad.

End VectorSequence.

Arguments __getitem__ {A} idx _.
Arguments steps_per_epoch {A} _.
Arguments Sequence_on_epoch_end {A} _.

(** ** Drivers

    What a caller does with the object: end several epochs, fetch every
    batch of an epoch. *)

Section Drivers.

Variable A : Type.
Context {G : RandomGen}.

(** The object after [k] calls of [on_epoch_end], whatever each returned. *)
Definition after_epochs (k : nat) (s : VectorSequence A) : VectorSequence A :=
  Nat.iter k (fun s' => snd (on_epoch_end s')) s.

(** [range(n)] *)
Definition range (n : Z) : list Z := map Z.of_nat (seq 0 (Z.to_nat n)).

(** [[m(x) for x in xs]] *)
Fixpoint for_each {St X Y : Type} (m : X -> M St Y) (xs : list X)
  : M St (list Y) :=
  match xs with
  | [] => ret []
  | x :: rest =>
      (y <- m x ;;
       ys <- for_each m rest ;;
       ret (y :: ys))%monad
  end.

(** [[self[idx] for idx in range(self.steps_per_epoch)]]: one pass over
    the batches of an epoch. *)
Definition all_batches : M (VectorSequence A) (list (list A)) :=
  (steps <- steps_per_epoch ;;
   for_each (@__getitem__ A) (range steps))%monad.

(** A call of one of the two methods. *)
Inductive call : Type :=
| EpochEnd
| GetItem (idx : Z).

(** The object after a call, whether the call returned or raised. *)
Definition do_call (s : VectorSequence A) (c : call) : VectorSequence A :=
  match c with
  | EpochEnd => snd (on_epoch_end s)
  | GetItem idx => snd (__getitem__ idx s)
  end.

(** The object after a sequence of calls, in order. *)
Definition run (calls : list call) (s : VectorSequence A) : VectorSequence A :=
  fold_left do_call calls s.

End Drivers.

(** The slice of [l] from offset [lo] up to offset [hi], in the words of
    the spec: the elements at positions [lo], [lo + 1], ..., [hi - 1]. *)
Definition contiguous_slice {A : Type} (l : list A) (lo hi : nat) : list A :=
  firstn (hi - lo) (skipn lo l).

(** The number of [on_epoch_end] calls in a sequence of calls. *)
Fixpoint epoch_ends (calls : list call) : nat :=
  match calls with
  | [] => O
  | EpochEnd :: rest => S (epoch_ends rest)
  | GetItem _ :: rest => epoch_ends rest
  end.

(** ** Invariants *)

(** What holds of an object built over [v] with batch size [b] and seed
    [seed], from the constructor on: the attributes fixed by the
    constructor, and the shuffled view a rearrangement of the vector. *)
Definition built_from {A : Type} (v : list A) (b seed : Z)
  (s : VectorSequence A) : Prop :=
  _vector s = v /\ _batch_size s = b /\ _seed s = seed /\
  _samples_number s = Z.of_nat (length v) /\
  Permutation v (_shuffled s).

(** Two objects that agree on all but the batch size. *)
Definition same_but_batch_size {A : Type} (s1 s2 : VectorSequence A) : Prop :=
  _samples_number s1 = _samples_number s2 /\
  _elapsed_epochs s1 = _elapsed_epochs s2 /\
  _seed s1 = _seed s2 /\ _vector s1 = _vector s2 /\
  _shuffled s1 = _shuffled s2.

(** ** numpy's generator

    [numpy.random.RandomState] is the Mersenne Twister MT19937, seeded
    from a 32-bit integer, and its [shuffle] is the Fisher-Yates loop of
    numpy over draws from [random_interval]. *)

Module NumPy.

Definition u32 (x : Z) : Z := Z.land x 0xffffffff.

(** The key of [mt19937_seed]: [key[pos] = seed] and then
    [seed = 1812433253 * (seed ^ (seed >> 30)) + pos + 1], in 32 bits. *)
Fixpoint seed_loop (n : nat) (pos seed : Z) : list Z :=
  match n with
  | O => []
  | S n' =>
      seed :: seed_loop n' (pos + 1)
        (u32 (1812433253 * Z.lxor seed (Z.shiftr seed 30) + pos + 1))
  end.

(** [l[i] = x] on a list; nothing past the end. *)
Fixpoint upd {X : Type} (i : nat) (x : X) (l : list X) : list X :=
  match l, i with
  | [], _ => []
  | _ :: t, O => x :: t
  | h :: t, S i' => h :: upd i' x t
  end.

Record mt19937_state : Type := mk_state {
  key : list Z;
  pos : nat
}.

(** One step of the regeneration of the key, in place at index [i]. *)
Definition twist_at (k : list Z) (i : nat) : list Z :=
  let y := Z.lor (Z.land (nth i k 0) 0x80000000)
                 (Z.land (nth ((i + 1) mod 624) k 0) 0x7fffffff) in
  upd i (Z.lxor (Z.lxor (nth ((i + 397) mod 624) k 0) (Z.shiftr y 1))
                (if Z.odd y then 0x9908b0df else 0)) k.

Definition mt19937_gen (k : list Z) : list Z :=
  fold_left twist_at (seq 0 624) k.

Definition temper (y : Z) : Z :=
  let y := Z.lxor y (Z.shiftr y 11) in
  let y := Z.lxor y (Z.land (Z.shiftl y 7) 0x9d2c5680) in
  let y := Z.lxor y (Z.land (Z.shiftl y 15) 0xefc60000) in
  Z.lxor y (Z.shiftr y 18).

Definition mt19937_seed (seed : Z) : mt19937_state :=
  mk_state (seed_loop 624 0 (u32 seed)) 624.

Definition mt19937_next (s : mt19937_state) : Z * mt19937_state :=
  let s := if Nat.eqb (pos s) 624
           then mk_state (mt19937_gen (key s)) 0 else s in
  (temper (nth (pos s) (key s) 0), mk_state (key s) (S (pos s))).

(** The smallest bit mask not below [m]. *)
Definition smallest_mask (m : Z) : Z :=
  let m := Z.lor m (Z.shiftr m 1) in
  let m := Z.lor m (Z.shiftr m 2) in
  let m := Z.lor m (Z.shiftr m 4) in
  let m := Z.lor m (Z.shiftr m 8) in
  let m := Z.lor m (Z.shiftr m 16) in
  Z.lor m (Z.shiftr m 32).

(** The rejection loop of [random_interval]: draw, mask, retry while the
    value exceeds [max]. The loop of numpy is unbounded; here it gives up
    with 0 after [fuel] draws. *)
Fixpoint rejection (fuel : nat) (mask max : Z) (s : mt19937_state)
  : Z * mt19937_state :=
  match fuel with
  | O => (0, s)
  | S fuel' =>
      let (v, s') := mt19937_next s in
      let v := Z.land v mask in
      if v <=? max then (v, s') else rejection fuel' mask max s'
  end.

(** [random_interval(state, max)]: a draw in [0, max], for the 32-bit
    range the indices of [shuffle] live in. *)
Definition random_interval (s : mt19937_state) (max : Z)
  : Z * mt19937_state :=
  if max =? 0 then (0, s) else rejection 4096 (smallest_mask max) max s.

Definition swap (i j : nat) (l : list nat) : list nat :=
  upd i (nth j l O) (upd j (nth i l O) l).

(** [for i in reversed(range(1, n)): j = random_interval(i); swap] *)
Fixpoint shuffle_raw (i : nat) (s : mt19937_state) (l : list nat)
  : list nat :=
  match i with
  | O => l
  | S i' =>
      let (j, s') := random_interval s (Z.of_nat i) in
      shuffle_raw i' s' (swap i (Z.to_nat j) l)
  end.

(** [RandomState(seed=seed)] for an integer seed. *)
Definition seeding (seed : Z) : result mt19937_state :=
  if (seed <? 0) || (0xffffffff <? seed)
  then Raise (ValueError "Seed must be between 0 and 2**32 - 1")
  else Ok (mt19937_seed seed).

#[export] Instance generator : RandomGen := {|
  rng := mt19937_state;
  RandomState := seeding;
  shuffle := fun s l => shuffle_raw (length l - 1) s l
|}.

End NumPy.


(** ** Lemmas on the Python values *)

Section PythonValues.

Variable A : Type.
Implicit Types (l v : list A) (indices : list nat).

Lemma fancy_index_arange_app (p v : list A) :
  fancy_index (p ++ v) (seq (length p) (length v)) = Ok v.
Proof.
  revert p; induction v as [|x v IH]; intros p; simpl; [reflexivity|].
  rewrite nth_error_app2 by lia.
  rewrite Nat.sub_diag; simpl.
  replace (p ++ x :: v) with ((p ++ [x]) ++ v) by (rewrite <- app_assoc; reflexivity).
  specialize (IH (p ++ [x])).
  rewrite length_app, Nat.add_1_r in IH.
  rewrite IH; reflexivity.
Qed.

Lemma fancy_index_arange (v : list A) :
  fancy_index v (arange (Z.of_nat (length v))) = Ok v.
Proof.
  unfold arange. rewrite Nat2Z.id. exact (fancy_index_arange_app [] v).
Qed.

Lemma fancy_index_cons_Ok v i indices l :
  fancy_index v (i :: indices) = Ok l ->
  exists x l', nth_error v i = Some x /\ fancy_index v indices = Ok l'
               /\ l = x :: l'.
Proof.
  simpl. destruct (nth_error v i) as [x|]; [|discriminate].
  destruct (fancy_index v indices) as [l'|e]; [|discriminate].
  intros H; injection H as <-. eauto.
Qed.

(** Indexing by a rearrangement of the indices rearranges the result. *)
Lemma fancy_index_Permutation v indices indices' :
  Permutation indices indices' ->
  forall l, fancy_index v indices = Ok l ->
  exists l', fancy_index v indices' = Ok l' /\ Permutation l l'.
Proof.
  induction 1 as [|i i1 i2 _ IH|i j i1|i1 i2 i3 _ IH12 _ IH23]; intros l Hl.
  - exists l; split; [exact Hl|reflexivity].
  - apply fancy_index_cons_Ok in Hl as (x & l0 & Hx & Hl0 & ->).
    destruct (IH _ Hl0) as (l' & Hl' & HP).
    exists (x :: l'); simpl; rewrite Hx, Hl'; auto.
  - apply fancy_index_cons_Ok in Hl as (x & l0 & Hx & Hl0 & ->).
    apply fancy_index_cons_Ok in Hl0 as (y & l1 & Hy & Hl1 & ->).
    exists (y :: x :: l1); simpl; rewrite Hx, Hy, Hl1; split;
      [reflexivity|apply perm_swap].
  - destruct (IH12 _ Hl) as (l2 & Hl2 & HP2).
    destruct (IH23 _ Hl2) as (l3 & Hl3 & HP3).
    exists l3; split; [exact Hl3|eapply perm_trans; eassumption].
Qed.

(** The indexing of [on_epoch_end] cannot raise, and rearranges. *)
Lemma fancy_index_shuffled (v : list A) (indices : list nat) :
  Permutation (arange (Z.of_nat (length v))) indices ->
  exists l, fancy_index v indices = Ok l /\ Permutation v l.
Proof.
  intros HP.
  eapply fancy_index_Permutation; [exact HP|apply fancy_index_arange].
Qed.

Lemma firstn_add (a b : nat) l :
  firstn (a + b) l = firstn a l ++ firstn b (skipn a l).
Proof.
  revert l; induction a as [|a IH]; intros [|x l]; simpl;
    try reflexivity.
  - now rewrite firstn_nil.
  - now rewrite IH.
Qed.

End PythonValues.

(** ** The two methods, unfolded *)

Section Methods.

Variable A : Type.
Context {G : RandomGen}.
Implicit Types (s : VectorSequence A) (v : list A).

Lemma on_epoch_end_eq s :
  on_epoch_end s =
  let s1 := set_elapsed_epochs (_elapsed_epochs s + 1) s in
  match RandomState (_seed s + (_elapsed_epochs s + 1)) with
  | Raise e => (Raise e, s1)
  | Ok g =>
      match fancy_index (_vector s)
                        (shuffle g (arange (_samples_number s))) with
      | Raise e => (Raise e, s1)
      | Ok l => (Ok tt, set_shuffled l s1)
      end
  end.
Proof.
  unfold on_epoch_end, Sequence_on_epoch_end, samples_number, bind, modify,
    read, lift; simpl.
  destruct (RandomState _) as [g|e]; [|reflexivity].
  destruct (fancy_index _ _); reflexivity.
Qed.

Lemma getitem_eq s idx :
  __getitem__ idx s =
  let steps := ceil_div (_samples_number s) (_batch_size s) in
  if idx >=? steps
  then (Raise (ValueError (getitem_message idx steps)), s)
  else (Ok (py_slice (_shuffled s) (idx * _batch_size s)
                     ((idx + 1) * _batch_size s)), s).
Proof.
  unfold __getitem__, steps_per_epoch, samples_number, batch_size, bind,
    read, ret, raise; simpl.
  destruct (idx >=? _); reflexivity.
Qed.

Lemma steps_per_epoch_eq s :
  steps_per_epoch s = (Ok (ceil_div (_samples_number s) (_batch_size s)), s).
Proof. reflexivity. Qed.

Lemma getitem_state s idx : snd (__getitem__ idx s) = s.
Proof. rewrite getitem_eq; simpl. destruct (idx >=? _); reflexivity. Qed.

(** What [on_epoch_end] leaves alone. *)
Lemma on_epoch_end_frame s :
  let s' := snd (on_epoch_end s) in
  _vector s' = _vector s /\ _seed s' = _seed s /\
  _batch_size s' = _batch_size s /\ _samples_number s' = _samples_number s.
Proof.
  rewrite on_epoch_end_eq; simpl.
  destruct (RandomState _) as [g|e]; [|simpl; auto].
  destruct (fancy_index _ _); simpl; auto.
Qed.

Lemma on_epoch_end_elapsed s :
  _elapsed_epochs (snd (on_epoch_end s)) = _elapsed_epochs s + 1.
Proof.
  rewrite on_epoch_end_eq; simpl.
  destruct (RandomState _) as [g|e]; [|reflexivity].
  destruct (fancy_index _ _); reflexivity.
Qed.

Lemma built_from_init v b seed e : built_from v b seed (__init__ v b seed e).
Proof. repeat split; reflexivity. Qed.

Lemma built_from_getitem v b seed s idx :
  built_from v b seed s -> built_from v b seed (snd (__getitem__ idx s)).
Proof. now rewrite getitem_state. Qed.

Context {HG : ShufflePermutes G}.

(** The run of [on_epoch_end] on a well-built object, by the answer of
    [RandomState]. *)
Lemma on_epoch_end_built v b seed s :
  built_from v b seed s ->
  let s1 := set_elapsed_epochs (_elapsed_epochs s + 1) s in
  match RandomState (seed + (_elapsed_epochs s + 1)) with
  | Raise e => on_epoch_end s = (Raise e, s1)
  | Ok g =>
      exists l,
        fancy_index v (shuffle g (arange (Z.of_nat (length v)))) = Ok l /\
        Permutation v l /\
        on_epoch_end s = (Ok tt, set_shuffled l s1)
  end.
Proof.
  intros (Hv & _ & Hs & Hn & _); simpl.
  rewrite on_epoch_end_eq; simpl. rewrite Hv, Hs, Hn.
  destruct (RandomState _) as [g|e]; [|reflexivity].
  destruct (fancy_index_shuffled v (shuffle_Permutation g _)) as (l & Hl & HP).
  exists l. rewrite Hl. auto.
Qed.

Lemma built_from_on_epoch_end v b seed s :
  built_from v b seed s -> built_from v b seed (snd (on_epoch_end s)).
Proof.
  intros H. pose proof (on_epoch_end_built H) as Hrun; simpl in Hrun.
  destruct H as (Hv & Hb & Hs & Hn & HP).
  destruct (RandomState _) as [g|e].
  - destruct Hrun as (l & _ & HPl & ->); repeat split; simpl; auto.
  - rewrite Hrun; repeat split; simpl; auto.
Qed.

Lemma built_from_run v b seed calls s :
  built_from v b seed s -> built_from v b seed (run calls s).
Proof.
  revert s; induction calls as [|c calls IH]; intros s H; simpl; [exact H|].
  apply IH. destruct c; simpl.
  - now apply built_from_on_epoch_end.
  - now apply built_from_getitem.
Qed.

Lemma built_from_after_epochs v b seed k s :
  built_from v b seed s -> built_from v b seed (after_epochs k s).
Proof.
  intros H; induction k as [|k IH]; simpl; [exact H|].
  now apply built_from_on_epoch_end.
Qed.

Lemma after_epochs_elapsed k s :
  _elapsed_epochs (after_epochs k s) = _elapsed_epochs s + Z.of_nat k.
Proof.
  induction k as [|k IH]; [simpl; lia|].
  change (after_epochs (S k) s) with (snd (on_epoch_end (after_epochs k s))).
  rewrite on_epoch_end_elapsed, IH. lia.
Qed.

End Methods.

(** ** numpy's shuffle rearranges *)

Module NumPyFacts.
Import NumPy.

Lemma upd_middle {X : Type} (l1 : list X) (a x : X) (l2 : list X) :
  upd (length l1) x (l1 ++ a :: l2) = l1 ++ x :: l2.
Proof. induction l1 as [|h l1 IH]; simpl; [reflexivity|now rewrite IH]. Qed.

Lemma nth_middle_at (l1 : list nat) (a : nat) (l2 : list nat) :
  nth (length l1) (l1 ++ a :: l2) O = a.
Proof. induction l1 as [|h l1 IH]; simpl; auto. Qed.

Lemma swap_same (i : nat) (l : list nat) :
  (i < length l)%nat -> swap i i l = l.
Proof.
  intros Hi. destruct (nth_split l O Hi) as (l1 & l2 & Hl & Hlen).
  unfold swap. rewrite Hl at 2 3. rewrite <- Hlen at 1 3.
  rewrite upd_middle, upd_middle. symmetry; exact Hl.
Qed.

Lemma swap_Permutation (i j : nat) (l : list nat) :
  (i < length l)%nat -> (j <= i)%nat -> Permutation l (swap i j l).
Proof.
  intros Hi Hji.
  destruct (Nat.eq_dec j i) as [->|Hne]; [now rewrite swap_same|].
  destruct (nth_split l O Hi) as (l0 & l3 & Hl & Hlen0).
  assert (Hj : (j < length l0)%nat) by lia.
  destruct (nth_split l0 O Hj) as (l1 & l2 & Hl0 & Hlen1).
  set (b := nth i l O) in *. set (a := nth j l0 O) in *.
  assert (Hl' : l = l1 ++ a :: l2 ++ b :: l3).
  { rewrite Hl, Hl0, <- app_assoc. reflexivity. }
  assert (Hi' : i = length (l1 ++ a :: l2)) by (rewrite <- Hl0; lia).
  unfold swap.
  assert (Hnj : nth j l O = a).
  { rewrite Hl', <- Hlen1. apply nth_middle_at. }
  fold b. rewrite Hnj.
  assert (Hu : upd j b l = (l1 ++ b :: l2) ++ b :: l3).
  { rewrite Hl', <- Hlen1, upd_middle, <- app_assoc. reflexivity. }
  rewrite Hu.
  assert (Hi'' : i = length (l1 ++ b :: l2)).
  { rewrite Hi', !length_app. reflexivity. }
  rewrite Hi'', upd_middle, Hl', <- app_assoc; simpl.
  apply Permutation_app_head.
  transitivity (a :: b :: l2 ++ l3).
  - apply perm_skip. symmetry. apply Permutation_middle.
  - transitivity (b :: a :: l2 ++ l3); [apply perm_swap|].
    apply perm_skip. apply Permutation_middle.
Qed.

Lemma rejection_bound (fuel : nat) (mask max : Z) (s : mt19937_state) :
  0 <= max -> fst (rejection fuel mask max s) <= max.
Proof.
  intros Hmax. revert s; induction fuel as [|fuel IH]; intros s;
    cbn [rejection]; [exact Hmax|].
  destruct (mt19937_next s) as [v s'].
  destruct (Z.land v mask <=? max) eqn:E; [|apply IH].
  cbn [fst]. now apply Z.leb_le.
Qed.

Lemma random_interval_bound (s : mt19937_state) (max : Z) :
  0 <= max -> fst (random_interval s max) <= max.
Proof.
  intros Hmax. unfold random_interval.
  destruct (max =? 0) eqn:E; [simpl; lia|now apply rejection_bound].
Qed.

Lemma shuffle_raw_Permutation (i : nat) (s : mt19937_state) (l : list nat) :
  (i < length l \/ i = O)%nat -> Permutation l (shuffle_raw i s l).
Proof.
  revert s l; induction i as [|i IH]; intros s l Hi; cbn [shuffle_raw];
    [reflexivity|].
  destruct Hi as [Hi|Hi]; [|discriminate].
  pose proof (@random_interval_bound s (Z.of_nat (S i)) (Nat2Z.is_nonneg _))
    as Hj.
  destruct (random_interval s (Z.of_nat (S i))) as [j s']; cbn [fst] in Hj.
  assert (HP : Permutation l (swap (S i) (Z.to_nat j) l))
    by (apply swap_Permutation; lia).
  transitivity (swap (S i) (Z.to_nat j) l); [exact HP|].
  apply IH. left. rewrite <- (Permutation_length HP). lia.
Qed.

(** numpy's generator is a generator in the sense of [ShufflePermutes]. *)
Lemma generator_permutes : ShufflePermutes generator.
Proof.
  intros g l; simpl. apply shuffle_raw_Permutation.
  destruct l; simpl; [right; reflexivity|left; lia].
Qed.

(** Known outputs: the first draw of the reference Mersenne Twister seeded
    with 5489, and [RandomState(42).permutation(10)]. *)
Example mt19937_first_output :
  fst (mt19937_next (mt19937_seed 5489)) = 3499211612.
Proof. vm_compute. reflexivity. Qed.

Example permutation_seed_42 :
  shuffle (mt19937_seed 42) (arange 10)
  = [8; 1; 5; 0; 7; 2; 9; 4; 3; 6]%nat.
Proof. vm_compute. reflexivity. Qed.

End NumPyFacts.

(** ** Properties of the batcher *)

(** *** The frame of the two methods *)

Lemma run_frame {G : RandomGen} (A : Type) (calls : list call)
  (s : VectorSequence A) :
  _vector (run calls s) = _vector s /\ _seed (run calls s) = _seed s /\
  _batch_size (run calls s) = _batch_size s /\
  _samples_number (run calls s) = _samples_number s.
Proof.
  revert s; induction calls as [|c calls IH]; intros s; simpl; [auto|].
  destruct (IH (do_call s c)) as (-> & -> & -> & ->).
  destruct c; simpl.
  - apply on_epoch_end_frame.
  - rewrite getitem_state; auto.
Qed.

(** C1: after construction and after any sequence of calls, in particular
    after any number of [on_epoch_end] calls, the shuffled view is a
    permutation of the vector given to the constructor: the same elements
    with the same multiplicities, hence the same length. *)
Theorem shuffled_is_permutation_of_vector
  (G : RandomGen) (HG : ShufflePermutes G)
  (A : Type) (vector : list A) (b seed e : Z) :
  Permutation vector (_shuffled (__init__ vector b seed e)) /\
  (forall k : nat,
      let s := after_epochs k (__init__ vector b seed e) in
      Permutation vector (_shuffled s) /\
      length (_shuffled s) = length vector) /\
  (forall calls : list call,
      let s := run calls (__init__ vector b seed e) in
      Permutation vector (_shuffled s) /\
      length (_shuffled s) = length vector).
Proof.
  split; [reflexivity|]. split.
  - intros k s.
    assert (H : built_from vector b seed s)
      by (subst s; apply built_from_after_epochs; [exact HG|apply built_from_init]).
    destruct H as (_ & _ & _ & _ & HP).
    split; [exact HP|symmetry; now apply Permutation_length].
  - intros calls s.
    assert (H : built_from vector b seed s)
      by (subst s; apply built_from_run; [exact HG|apply built_from_init]).
    destruct H as (_ & _ & _ & _ & HP).
    split; [exact HP|symmetry; now apply Permutation_length].
Qed.

Lemma shuffled_is_permutation_of_vector_witness :
  let vector := [10; 11; 12; 13; 14] in
  Permutation vector (_shuffled (__init__ vector 2 42 0)) /\
  (forall k : nat,
      let s := after_epochs (G := NumPy.generator) k (__init__ vector 2 42 0) in
      Permutation vector (_shuffled s) /\
      length (_shuffled s) = length vector) /\
  (forall calls : list call,
      let s := run (G := NumPy.generator) calls (__init__ vector 2 42 0) in
      Permutation vector (_shuffled s) /\
      length (_shuffled s) = length vector).
Proof.
  exact (@shuffled_is_permutation_of_vector
           NumPy.generator NumPyFacts.generator_permutes
           Z [10; 11; 12; 13; 14] 2 42 0).
Defined.

(** C9: [__getitem__] leaves every attribute of the object as it was, on
    return and on raise; [on_epoch_end] leaves the vector, the seed, the
    batch size and the number of samples as they were; so the vector and
    the seed stay those given to the constructor through any sequence of
    calls. *)
Theorem getitem_pure_and_on_epoch_end_frame
  (G : RandomGen) (A : Type) :
  (forall (s : VectorSequence A) (idx : Z), snd (__getitem__ idx s) = s) /\
  (forall s : VectorSequence A,
      let s' := snd (on_epoch_end s) in
      _vector s' = _vector s /\ _seed s' = _seed s /\
      _batch_size s' = _batch_size s /\
      _samples_number s' = _samples_number s) /\
  (forall (vector : list A) (b seed e : Z) (calls : list call),
      let s := run calls (__init__ vector b seed e) in
      _vector s = vector /\ _seed s = seed).
Proof.
  split; [intros; apply getitem_state|].
  split; [intros; apply on_epoch_end_frame|].
  intros vector b seed e calls s.
  destruct (run_frame calls (__init__ vector b seed e)) as (Hv & Hs & _).
  split; assumption.
Qed.

(** C7: the constructor leaves the shuffled view equal to the vector, in
    its order, whatever the elapsed-epoch count it is given; for ten
    elements and batches of three there are four steps, batch 0 is the
    first three elements in order, batches 1 and 2 have three elements and
    batch 3 has one. *)
Theorem init_view_is_vector (A : Type) :
  (forall (vector : list A) (b seed e : Z),
      _shuffled (__init__ vector b seed e) = vector) /\
  (forall (x0 x1 x2 x3 x4 x5 x6 x7 x8 x9 : A) (seed e : Z),
      let s := __init__ [x0; x1; x2; x3; x4; x5; x6; x7; x8; x9] 3 seed e in
      fst (steps_per_epoch s) = Ok 4 /\
      fst (__getitem__ 0 s) = Ok [x0; x1; x2] /\
      fst (__getitem__ 1 s) = Ok [x3; x4; x5] /\
      fst (__getitem__ 2 s) = Ok [x6; x7; x8] /\
      fst (__getitem__ 3 s) = Ok [x9]).
Proof.
  split; [reflexivity|].
  intros; repeat split; reflexivity.
Qed.

(** *** Batches *)

Lemma ceil_div_lt (n b idx : Z) :
  0 < b -> (idx < ceil_div n b <-> idx * b < n).
Proof.
  intros Hb. unfold ceil_div.
  pose proof (Z.div_mod (- n) b ltac:(lia)) as Hdm.
  pose proof (Z.mod_pos_bound (- n) b Hb) as Hm.
  split; intros H; nia.
Qed.

Lemma ceil_div_nonneg (n b : Z) : 0 < b -> 0 <= n -> 0 <= ceil_div n b.
Proof.
  intros Hb Hn.
  assert (H : -1 < ceil_div n b) by (apply ceil_div_lt; lia).
  lia.
Qed.

Lemma ceil_div_covers (n b : Z) : 0 < b -> n <= ceil_div n b * b.
Proof.
  intros Hb.
  destruct (Z.lt_ge_cases (ceil_div n b * b) n) as [H|H]; [|lia].
  apply (ceil_div_lt n (ceil_div n b) Hb) in H. lia.
Qed.

Section Slices.

Variable A : Type.
Implicit Types l : list A.

(** For an index that is not negative, the slice of [__getitem__] is the
    block of [b] elements at offset [idx * b], cut at the end of the list. *)
Lemma py_slice_block l (b idx : Z) :
  0 < b -> 0 <= idx ->
  py_slice l (idx * b) ((idx + 1) * b)
  = firstn (Z.to_nat b) (skipn (Z.to_nat (idx * b)) l).
Proof.
  intros Hb Hidx. unfold py_slice, slice_bound.
  set (n := Z.of_nat (length l)).
  assert (H0 : (idx * b <? 0) = false) by (apply Z.ltb_ge; nia).
  assert (H1 : ((idx + 1) * b <? 0) = false) by (apply Z.ltb_ge; nia).
  rewrite H0, H1.
  destruct (Z.le_gt_cases n (idx * b)) as [Hout|Hin].
  - rewrite (skipn_all2 (n := Z.to_nat (idx * b))) by (subst n; lia).
    rewrite firstn_nil.
    replace (Z.to_nat (Z.min ((idx + 1) * b) n - Z.min (idx * b) n))
      with O by lia.
    reflexivity.
  - rewrite (Z.min_l (idx * b) n) by lia.
    destruct (Z.le_gt_cases ((idx + 1) * b) n) as [Hfull|Hcut].
    + rewrite Z.min_l by lia. f_equal. lia.
    + rewrite Z.min_r by lia.
      rewrite !firstn_all2; [reflexivity| |];
        rewrite length_skipn; subst n; lia.
Qed.

(** For a valid index, it is the slice of the spec. *)
Lemma py_slice_contiguous l (b idx : Z) :
  0 < b -> 0 <= idx -> idx * b < Z.of_nat (length l) ->
  py_slice l (idx * b) ((idx + 1) * b)
  = contiguous_slice l (Z.to_nat (idx * b))
      (Z.to_nat (Z.min ((idx + 1) * b) (Z.of_nat (length l)))).
Proof.
  intros Hb Hidx Hin. unfold py_slice, slice_bound, contiguous_slice.
  assert (H0 : (idx * b <? 0) = false) by (apply Z.ltb_ge; nia).
  assert (H1 : ((idx + 1) * b <? 0) = false) by (apply Z.ltb_ge; nia).
  rewrite H0, H1, (Z.min_l (idx * b)) by lia.
  f_equal. lia.
Qed.

Lemma contiguous_slice_length l (lo hi : nat) :
  (lo <= hi <= length l)%nat ->
  length (contiguous_slice l lo hi) = (hi - lo)%nat.
Proof.
  intros H. unfold contiguous_slice.
  rewrite length_firstn, length_skipn. lia.
Qed.

Lemma contiguous_slice_nth l (lo hi k : nat) :
  (k < hi - lo)%nat ->
  nth_error (contiguous_slice l lo hi) k = nth_error l (lo + k).
Proof.
  intros H. unfold contiguous_slice.
  rewrite nth_error_firstn.
  destruct (Nat.ltb_spec k (hi - lo)) as [_|Hle]; [|lia].
  apply nth_error_skipn.
Qed.

(** Blocks of [c] elements, one after the other, rebuild the front. *)
Lemma concat_blocks l (c n : nat) :
  concat (map (fun i => firstn c (skipn (i * c) l)) (seq 0 n))
  = firstn (n * c) l.
Proof.
  induction n as [|n IH]; [reflexivity|].
  rewrite seq_S, map_app, concat_app, IH; simpl.
  rewrite app_nil_r, (Nat.add_comm c), firstn_add. reflexivity.
Qed.

End Slices.

Lemma for_each_getitem (A : Type) (s : VectorSequence A) (idxs : list Z) :
  Forall (fun idx => idx < ceil_div (_samples_number s) (_batch_size s)) idxs ->
  for_each (@__getitem__ A) idxs s
  = (Ok (map (fun idx => py_slice (_shuffled s) (idx * _batch_size s)
                                  ((idx + 1) * _batch_size s)) idxs), s).
Proof.
  induction 1 as [|idx idxs Hidx _ IH]; [reflexivity|].
  cbn [for_each map]. unfold bind at 1. rewrite getitem_eq; cbv zeta.
  destruct (Z.geb_spec idx (ceil_div (_samples_number s) (_batch_size s)))
    as [Hge|_]; [lia|].
  unfold bind at 1. rewrite IH. reflexivity.
Qed.

(** C2: on an object built with a positive batch size, after any calls,
    [__getitem__ idx] for [0 <= idx < steps_per_epoch], where
    [steps_per_epoch] is the ceiling of N / B, returns the slice of the
    current shuffled view from offset [idx * B] to [min ((idx+1) * B) N],
    in order, and leaves the object as it is. Every batch but the last has
    B elements; the last has [N mod B] when B does not divide N and B
    otherwise; no batch is empty. *)
Theorem getitem_returns_contiguous_slice
  (G : RandomGen) (HG : ShufflePermutes G)
  (A : Type) (vector : list A) (b seed e : Z) (calls : list call) (idx : Z) :
  let s := run calls (__init__ vector b seed e) in
  let N := Z.of_nat (length vector) in
  let steps := ceil_div N b in
  0 < b ->
  0 <= idx < steps ->
  let batch :=
    contiguous_slice (_shuffled s) (Z.to_nat (idx * b))
                     (Z.to_nat (Z.min ((idx + 1) * b) N)) in
  fst (steps_per_epoch s) = Ok steps /\
  __getitem__ idx s = (Ok batch, s) /\
  (forall k : nat, (k < length batch)%nat ->
     nth_error batch k = nth_error (_shuffled s) (Z.to_nat (idx * b) + k)) /\
  Z.of_nat (length batch) = Z.min ((idx + 1) * b) N - idx * b /\
  (idx < steps - 1 -> Z.of_nat (length batch) = b) /\
  (idx = steps - 1 -> N mod b <> 0 -> Z.of_nat (length batch) = N mod b) /\
  (idx = steps - 1 -> N mod b = 0 -> Z.of_nat (length batch) = b) /\
  0 < Z.of_nat (length batch).
Proof.
  intros s N steps Hb Hidx batch.
  assert (Hs : built_from vector b seed s)
    by (subst s; apply built_from_run; [exact HG|apply built_from_init]).
  destruct Hs as (_ & HB & _ & HN & HP).
  assert (Hlen : Z.of_nat (length (_shuffled s)) = N)
    by (subst N; rewrite (Permutation_length HP); reflexivity).
  assert (Hin : idx * b < N) by (apply ceil_div_lt; [exact Hb|apply Hidx]).
  assert (Hbatch : Z.of_nat (length batch) = Z.min ((idx + 1) * b) N - idx * b).
  { subst batch. rewrite contiguous_slice_length; lia. }
  split; [rewrite steps_per_epoch_eq, HB, HN; reflexivity|].
  split.
  { rewrite getitem_eq; cbv zeta. rewrite HB, HN. fold N; fold steps.
    destruct (Z.geb_spec idx steps) as [Hge|_]; [lia|].
    rewrite py_slice_contiguous by lia. rewrite Hlen. reflexivity. }
  split.
  { intros k Hk. subst batch. apply contiguous_slice_nth.
    rewrite contiguous_slice_length in Hk; lia. }
  split; [exact Hbatch|].
  assert (Hcov : N <= steps * b) by (apply ceil_div_covers; exact Hb).
  split; [|split; [|split]].
  - intros Hnl.
    assert (Hnext : (idx + 1) * b < N) by (apply ceil_div_lt; [exact Hb|fold steps; lia]).
    lia.
  - intros -> Hmod.
    replace (steps - 1 + 1) with steps in Hbatch by lia.
    rewrite Hbatch, Z.min_r by exact Hcov.
    pose proof (Z.div_mod N b ltac:(lia)) as Hdm.
    pose proof (Z.mod_pos_bound N b Hb) as Hr.
    assert (Hq1 : steps - 1 <= N / b) by nia.
    assert (Hq2 : N / b <= steps - 1) by nia.
    assert (Hq : N / b = steps - 1) by lia.
    rewrite Hq in Hdm. lia.
  - intros -> Hmod.
    replace (steps - 1 + 1) with steps in Hbatch by lia.
    rewrite Hbatch, Z.min_r by exact Hcov.
    pose proof (Z.div_mod N b ltac:(lia)) as Hdm. rewrite Hmod in Hdm.
    assert (Hq1 : steps - 1 < N / b) by nia.
    assert (Hq2 : N / b <= steps) by nia.
    assert (Hq : N / b = steps) by lia.
    rewrite Hq in Hdm. lia.
  - lia.
Qed.

Lemma getitem_returns_contiguous_slice_witness :
  let s := run (G := NumPy.generator) [EpochEnd]
               (__init__ [10; 11; 12; 13; 14; 15; 16; 17; 18; 19] 3 42 0) in
  0 < 3 /\ 0 <= 3 < 4 /\
  fst (steps_per_epoch s) = Ok 4 /\
  __getitem__ 3 s = (Ok (contiguous_slice (_shuffled s) 9 10), s) /\
  Z.of_nat (length (contiguous_slice (_shuffled s) 9 10)) = 10 mod 3.
Proof.
  assert (Hb : 0 < 3) by lia.
  assert (Hidx : 0 <= 3 < ceil_div (Z.of_nat 10) 3) by (vm_compute; split; [discriminate|reflexivity]).
  pose proof (@getitem_returns_contiguous_slice
                NumPy.generator NumPyFacts.generator_permutes Z
                [10; 11; 12; 13; 14; 15; 16; 17; 18; 19] 3 42 0
                [EpochEnd] 3 Hb Hidx)
    as (Hsteps & Hget & _ & _ & _ & Hlast & _).
  split; [exact Hb|]. split; [exact Hidx|].
  split; [exact Hsteps|]. split; [exact Hget|].
  apply Hlast; [reflexivity|discriminate].
Defined.

(** C6: on an object built with a positive batch size, after any calls,
    fetching the batches 0, 1, ..., [steps_per_epoch - 1] in order
    succeeds, leaves the object as it is, yields [steps_per_epoch]
    batches, and their concatenation is the current shuffled view: each
    position of the view is in exactly one batch. *)
Theorem all_batches_rebuild_view
  (G : RandomGen) (HG : ShufflePermutes G)
  (A : Type) (vector : list A) (b seed e : Z) (calls : list call) :
  0 < b ->
  let s := run calls (__init__ vector b seed e) in
  exists batches : list (list A),
    all_batches s = (Ok batches, s) /\
    batches = map (fun idx => match fst (__getitem__ idx s) with
                              | Ok batch => batch
                              | Raise _ => []
                              end)
                  (range (ceil_div (Z.of_nat (length vector)) b)) /\
    Z.of_nat (length batches) = ceil_div (Z.of_nat (length vector)) b /\
    concat batches = _shuffled s.
Proof.
  intros Hb s.
  assert (Hs : built_from vector b seed s)
    by (subst s; apply built_from_run; [exact HG|apply built_from_init]).
  destruct Hs as (_ & HB & _ & HN & HP).
  set (N := Z.of_nat (length vector)) in *.
  set (steps := ceil_div N b).
  assert (Hsteps : 0 <= steps) by (apply ceil_div_nonneg; lia).
  assert (Hrange : Forall (fun idx => 0 <= idx < steps) (range steps)).
  { unfold range. apply Forall_forall. intros idx Hin.
    apply in_map_iff in Hin as (i & <- & Hi). apply in_seq in Hi. lia. }
  assert (Hall : all_batches s
                 = (Ok (map (fun idx => py_slice (_shuffled s) (idx * b)
                                            ((idx + 1) * b)) (range steps)), s)).
  { unfold all_batches, bind. rewrite steps_per_epoch_eq, HB, HN.
    fold steps. rewrite for_each_getitem.
    - rewrite HB. reflexivity.
    - rewrite HB, HN. fold steps.
      eapply Forall_impl; [|exact Hrange]. simpl; lia. }
  eexists. split; [exact Hall|]. split; [|split].
  - apply map_ext_in. intros idx Hin.
    rewrite Forall_forall in Hrange. specialize (Hrange idx Hin).
    rewrite getitem_eq; cbv zeta. rewrite HB, HN. fold steps.
    destruct (Z.geb_spec idx steps) as [Hge|_]; [lia|reflexivity].
  - unfold range. rewrite !length_map, length_seq. lia.
  - unfold range. rewrite map_map.
    rewrite (map_ext_in _
               (fun i => firstn (Z.to_nat b)
                           (skipn (i * Z.to_nat b) (_shuffled s)))).
    + rewrite concat_blocks. apply firstn_all2.
      rewrite <- (Permutation_length HP).
      pose proof (ceil_div_covers N Hb) as Hcov. fold steps in Hcov.
      subst N. nia.
    + intros i _. rewrite py_slice_block by lia. do 2 f_equal. lia.
Qed.

Lemma all_batches_rebuild_view_witness :
  let s := run (G := NumPy.generator) [EpochEnd]
               (__init__ [10; 11; 12; 13; 14; 15; 16; 17; 18; 19] 3 42 0) in
  0 < 3 /\
  exists batches : list (list Z),
    all_batches s = (Ok batches, s) /\ concat batches = _shuffled s.
Proof.
  assert (Hb : 0 < 3) by lia.
  destruct (@all_batches_rebuild_view
              NumPy.generator NumPyFacts.generator_permutes Z
              [10; 11; 12; 13; 14; 15; 16; 17; 18; 19] 3 42 0 [EpochEnd] Hb)
    as (batches & Hall & _ & _ & Hcat).
  split; [exact Hb|]. exists batches. split; assumption.
Defined.

(** C3, as the code has it: [__getitem__ idx] raises exactly when
    [idx >= steps_per_epoch]; the exception is a [ValueError] whose
    message holds the index and the number of steps, and the object is
    left as it is. For every [idx] below [steps_per_epoch], negative ones
    included, it does not raise and returns the Python slice
    [_shuffled[idx * B : (idx + 1) * B]]. *)
Theorem getitem_raises_iff_idx_ge_steps
  (A : Type) (s : VectorSequence A) (idx : Z) :
  let steps := ceil_div (_samples_number s) (_batch_size s) in
  fst (steps_per_epoch s) = Ok steps /\
  ((exists e, fst (__getitem__ idx s) = Raise e) <-> steps <= idx) /\
  (steps <= idx ->
   __getitem__ idx s
   = (Raise (ValueError
        ("Given index " ++ str idx
         ++ " is greater than the number of steps per epoch of this sequence "
         ++ str steps ++ ".")), s)) /\
  (idx < steps ->
   __getitem__ idx s
   = (Ok (py_slice (_shuffled s) (idx * _batch_size s)
                   ((idx + 1) * _batch_size s)), s)).
Proof.
  intros steps. split; [reflexivity|].
  rewrite getitem_eq; cbv zeta. fold steps.
  destruct (Z.geb_spec idx steps) as [Hge|Hlt]; cbn [fst].
  - split; [split; [lia|eauto]|]. split; [reflexivity|lia].
  - split; [split; [intros (e' & He); discriminate|lia]|].
    split; [lia|reflexivity].
Qed.

Lemma getitem_raises_iff_idx_ge_steps_witness :
  let s := __init__ [10; 11; 12; 13; 14; 15; 16; 17; 18; 19] 3 42 0 in
  __getitem__ 4 s
  = (Raise (ValueError
       "Given index 4 is greater than the number of steps per epoch of this sequence 4."),
     s) /\
  __getitem__ (-2) s = (Ok [14; 15; 16], s).
Proof.
  pose proof (getitem_raises_iff_idx_ge_steps
                (__init__ [10; 11; 12; 13; 14; 15; 16; 17; 18; 19] 3 42 0) 4)
    as (_ & _ & Hraise & _).
  pose proof (getitem_raises_iff_idx_ge_steps
                (__init__ [10; 11; 12; 13; 14; 15; 16; 17; 18; 19] 3 42 0) (-2))
    as (_ & _ & _ & Hret).
  split; [apply Hraise; vm_compute; discriminate|].
  apply Hret; vm_compute; reflexivity.
Defined.

(** C3, as stated, fails: with ten elements and batches of three there are
    four steps; index -1 is outside [0, 4) and [__getitem__ (-1)] returns
    the empty array, index -2 is outside too and [__getitem__ (-2)]
    returns three elements. *)
Lemma getitem_negative_idx_does_not_raise :
  let s := __init__ [10; 11; 12; 13; 14; 15; 16; 17; 18; 19] 3 42 0 in
  fst (steps_per_epoch s) = Ok 4 /\
  ~ (0 <= -1 < 4) /\
  fst (__getitem__ (-1) s) = Ok [] /\
  fst (__getitem__ (-2) s) = Ok [14; 15; 16] /\
  ~ (forall idx : Z,
        ~ (0 <= idx < 4) -> exists e, fst (__getitem__ idx s) = Raise e).
Proof.
  cbv zeta. split; [reflexivity|]. split; [lia|].
  split; [reflexivity|]. split; [reflexivity|].
  intros H. destruct (H (-1) ltac:(lia)) as (e & He). discriminate He.
Qed.

(** *** Seeds and epochs *)

(** C4: [on_epoch_end] first adds one to the elapsed-epoch counter, also
    when it raises afterwards, and then asks [RandomState] for the seed
    [_seed + _elapsed_epochs] with the counter already incremented: what
    the call does is fixed by the answer of [RandomState] at that seed
    alone. With seed 42 and no elapsed epoch the first call seeds with 43;
    with seed 43 and no elapsed epoch it seeds with 44; with numpy's
    generator and nine elements the two permutations, and the two views,
    differ. *)
Theorem on_epoch_end_seeds_after_increment :
  (forall (G : RandomGen) (HG : ShufflePermutes G) (A : Type)
          (vector : list A) (b seed e : Z) (calls : list call),
      let s := run calls (__init__ vector b seed e) in
      let elapsed := _elapsed_epochs s + 1 in
      _elapsed_epochs (snd (on_epoch_end s)) = elapsed /\
      (forall err, RandomState (seed + elapsed) = Raise err ->
         on_epoch_end s = (Raise err, set_elapsed_epochs elapsed s)) /\
      (forall g, RandomState (seed + elapsed) = Ok g ->
         exists l,
           fancy_index vector
             (shuffle g (arange (Z.of_nat (length vector)))) = Ok l /\
           on_epoch_end s
           = (Ok tt, set_shuffled l (set_elapsed_epochs elapsed s)))) /\
  (forall (G : RandomGen) (HG : ShufflePermutes G) (A : Type)
          (vector : list A) (b : Z) (g43 g44 : rng),
      RandomState 43 = Ok g43 -> RandomState 44 = Ok g44 ->
      fancy_index vector (shuffle g43 (arange (Z.of_nat (length vector))))
      = Ok (_shuffled (snd (on_epoch_end (__init__ vector b 42 0)))) /\
      fancy_index vector (shuffle g44 (arange (Z.of_nat (length vector))))
      = Ok (_shuffled (snd (on_epoch_end (__init__ vector b 43 0))))) /\
  (let vector := [0; 1; 2; 3; 4; 5; 6; 7; 8] in
   let first := snd (on_epoch_end (G := NumPy.generator)
                                  (__init__ vector 3 42 0)) in
   let other := snd (on_epoch_end (G := NumPy.generator)
                                  (__init__ vector 3 43 0)) in
   _elapsed_epochs first = 1 /\ _elapsed_epochs other = 1 /\
   shuffle (RandomGen := NumPy.generator) (NumPy.mt19937_seed 43) (arange 9)
   = [3; 8; 6; 7; 2; 5; 1; 0; 4]%nat /\
   shuffle (RandomGen := NumPy.generator) (NumPy.mt19937_seed 44) (arange 9)
   = [6; 2; 0; 8; 7; 5; 1; 3; 4]%nat /\
   _shuffled first = [3; 8; 6; 7; 2; 5; 1; 0; 4] /\
   _shuffled other = [6; 2; 0; 8; 7; 5; 1; 3; 4] /\
   _shuffled first <> _shuffled other).
Proof.
  assert (Hgen : forall (G : RandomGen) (HG : ShufflePermutes G) (A : Type)
          (vector : list A) (b seed e : Z) (calls : list call),
      let s := run calls (__init__ vector b seed e) in
      let elapsed := _elapsed_epochs s + 1 in
      _elapsed_epochs (snd (on_epoch_end s)) = elapsed /\
      (forall err, RandomState (seed + elapsed) = Raise err ->
         on_epoch_end s = (Raise err, set_elapsed_epochs elapsed s)) /\
      (forall g, RandomState (seed + elapsed) = Ok g ->
         exists l,
           fancy_index vector
             (shuffle g (arange (Z.of_nat (length vector)))) = Ok l /\
           on_epoch_end s
           = (Ok tt, set_shuffled l (set_elapsed_epochs elapsed s)))).
  { intros G HG A vector b seed e calls s elapsed.
    assert (Hs : built_from vector b seed s)
      by (subst s; apply built_from_run; [exact HG|apply built_from_init]).
    pose proof (on_epoch_end_built Hs) as Hrun; cbv zeta in Hrun.
    fold elapsed in Hrun.
    split; [apply on_epoch_end_elapsed|]. split.
    - intros err Herr. rewrite Herr in Hrun. exact Hrun.
    - intros g Hg. rewrite Hg in Hrun.
      destruct Hrun as (l & Hl & _ & Hrun). eauto. }
  split; [exact Hgen|]. split.
  - intros G HG A vector b g43 g44 H43 H44. split.
    + destruct (Hgen G HG A vector b 42 0 []) as (_ & _ & Hok).
      destruct (Hok g43 H43) as (l & Hl & Hrun).
      change (run [] (__init__ vector b 42 0))
        with (__init__ vector b 42 0) in Hrun.
      rewrite Hrun. exact Hl.
    + destruct (Hgen G HG A vector b 43 0 []) as (_ & _ & Hok).
      destruct (Hok g44 H44) as (l & Hl & Hrun).
      change (run [] (__init__ vector b 43 0))
        with (__init__ vector b 43 0) in Hrun.
      rewrite Hrun. exact Hl.
  - cbv zeta. repeat split; try (vm_compute; reflexivity).
    vm_compute. discriminate.
Qed.

Lemma on_epoch_end_seeds_after_increment_witness :
  let s := __init__ [10; 11; 12] 2 42 0 in
  RandomState (RandomGen := NumPy.generator) 43 = Ok (NumPy.mt19937_seed 43) /\
  fancy_index [10; 11; 12]
    (shuffle (RandomGen := NumPy.generator) (NumPy.mt19937_seed 43) (arange 3))
  = Ok (_shuffled (snd (on_epoch_end (G := NumPy.generator) s))).
Proof.
  assert (H43 : RandomState (RandomGen := NumPy.generator) 43
                = Ok (NumPy.mt19937_seed 43)) by reflexivity.
  assert (H44 : RandomState (RandomGen := NumPy.generator) 44
                = Ok (NumPy.mt19937_seed 44)) by reflexivity.
  split; [exact H43|].
  destruct on_epoch_end_seeds_after_increment as (_ & Hseed & _).
  exact (proj1 (Hseed NumPy.generator NumPyFacts.generator_permutes Z
                      [10; 11; 12] 2 _ _ H43 H44)).
Defined.

Lemma same_but_batch_size_after_epochs {G : RandomGen} (A : Type)
  (k : nat) (s1 s2 : VectorSequence A) :
  same_but_batch_size s1 s2 ->
  same_but_batch_size (after_epochs k s1) (after_epochs k s2).
Proof.
  intros H; induction k as [|k IH]; [exact H|].
  change (after_epochs (S k) s1) with (snd (on_epoch_end (after_epochs k s1))).
  change (after_epochs (S k) s2) with (snd (on_epoch_end (after_epochs k s2))).
  destruct IH as (Hn & He & Hs & Hv & Hsh).
  rewrite !on_epoch_end_eq; cbv zeta. rewrite Hn, He, Hs, Hv.
  destruct (RandomState _) as [g|err];
    [destruct (fancy_index _ _)|]; repeat split; assumption.
Qed.

(** C5: for a vector, a seed S and an elapsed-epoch value E whose seed
    [S + E] the generator accepts, there is one list, the vector indexed
    by the permutation of that seed, which is the shuffled view of every
    object built over the vector with seed S that reaches E by
    [on_epoch_end] calls, whatever its batch size, the count it started
    from and the number of calls; and two objects built alike but for the
    batch size hold the same view after the same number of calls. *)
Theorem shuffled_view_determined_by_seed_and_epoch
  (G : RandomGen) (HG : ShufflePermutes G)
  (A : Type) (vector : list A) (seed : Z) :
  (forall (E : Z) (g : rng),
      RandomState (seed + E) = Ok g ->
      exists l : list A,
        fancy_index vector (shuffle g (arange (Z.of_nat (length vector))))
        = Ok l /\
        forall (b e0 : Z) (k : nat),
          e0 + Z.of_nat (S k) = E ->
          let s := after_epochs (S k) (__init__ vector b seed e0) in
          _elapsed_epochs s = E /\ _shuffled s = l) /\
  (forall (b1 b2 e0 : Z) (k : nat),
      _shuffled (after_epochs k (__init__ vector b1 seed e0))
      = _shuffled (after_epochs k (__init__ vector b2 seed e0))).
Proof.
  split.
  - intros E g Hg.
    destruct (fancy_index_shuffled vector
                (shuffle_Permutation g (arange (Z.of_nat (length vector)))))
      as (l & Hl & _).
    exists l. split; [exact Hl|].
    intros b e0 k HE s. subst s.
    change (after_epochs (S k) (__init__ vector b seed e0))
      with (snd (on_epoch_end (after_epochs k (__init__ vector b seed e0)))).
    set (s0 := after_epochs k (__init__ vector b seed e0)).
    assert (Hs0 : built_from vector b seed s0)
      by (subst s0; apply built_from_after_epochs;
          [exact HG|apply built_from_init]).
    assert (He0 : _elapsed_epochs s0 + 1 = E).
    { subst s0. rewrite after_epochs_elapsed. simpl _elapsed_epochs. lia. }
    split; [rewrite on_epoch_end_elapsed; exact He0|].
    pose proof (on_epoch_end_built Hs0) as Hrun; cbv zeta in Hrun.
    rewrite He0, Hg in Hrun. destruct Hrun as (l' & Hl' & _ & ->).
    simpl. congruence.
  - intros b1 b2 e0 k.
    apply (@same_but_batch_size_after_epochs G A k
             (__init__ vector b1 seed e0) (__init__ vector b2 seed e0)).
    repeat split.
Qed.

Lemma shuffled_view_determined_by_seed_and_epoch_witness :
  RandomState (RandomGen := NumPy.generator) (42 + 3)
  = Ok (NumPy.mt19937_seed 45) /\
  _shuffled (after_epochs (G := NumPy.generator) 3
               (__init__ [10; 11; 12; 13] 2 42 0))
  = _shuffled (after_epochs (G := NumPy.generator) 1
                 (__init__ [10; 11; 12; 13] 3 42 2)).
Proof.
  assert (H45 : RandomState (RandomGen := NumPy.generator) (42 + 3)
                = Ok (NumPy.mt19937_seed 45)) by reflexivity.
  split; [exact H45|].
  destruct (@shuffled_view_determined_by_seed_and_epoch
              NumPy.generator NumPyFacts.generator_permutes Z
              [10; 11; 12; 13] 42) as (Hdet & _).
  destruct (Hdet 3 _ H45) as (l & _ & Hview).
  destruct (Hview 2 0 2%nat eq_refl) as (_ & ->).
  destruct (Hview 3 2 0%nat eq_refl) as (_ & ->).
  reflexivity.
Defined.

(** C8: take two objects built over the same vector, each after any calls
    of its own. If their sums of seed and elapsed-epoch counter are equal
    after one more [on_epoch_end] on each, the two calls return or raise
    alike, and when they return the two shuffled views are equal,
    whatever the views were before. The pairs (42, 1) and (43, 0)
    collide: with numpy's generator and nine elements the views after the
    next [on_epoch_end] are the same list. *)
Theorem equal_seed_sums_give_equal_views :
  (forall (G : RandomGen) (HG : ShufflePermutes G) (A : Type)
          (vector : list A) (b1 seed1 e1 b2 seed2 e2 : Z)
          (calls1 calls2 : list call),
      let s1 := run calls1 (__init__ vector b1 seed1 e1) in
      let s2 := run calls2 (__init__ vector b2 seed2 e2) in
      seed1 + _elapsed_epochs (snd (on_epoch_end s1))
      = seed2 + _elapsed_epochs (snd (on_epoch_end s2)) ->
      fst (on_epoch_end s1) = fst (on_epoch_end s2) /\
      (fst (on_epoch_end s1) = Ok tt ->
       _shuffled (snd (on_epoch_end s1))
       = _shuffled (snd (on_epoch_end s2)))) /\
  (let vector := [0; 1; 2; 3; 4; 5; 6; 7; 8] in
   _shuffled (snd (on_epoch_end (G := NumPy.generator)
                                (__init__ vector 3 42 1)))
   = [6; 2; 0; 8; 7; 5; 1; 3; 4] /\
   _shuffled (snd (on_epoch_end (G := NumPy.generator)
                                (__init__ vector 3 43 0)))
   = [6; 2; 0; 8; 7; 5; 1; 3; 4]).
Proof.
  split; [|split; vm_compute; reflexivity].
  intros G HG A vector b1 seed1 e1 b2 seed2 e2 calls1 calls2 s1 s2 Hsum.
  rewrite !on_epoch_end_elapsed in Hsum.
  assert (H1 : built_from vector b1 seed1 s1)
    by (subst s1; apply built_from_run; [exact HG|apply built_from_init]).
  assert (H2 : built_from vector b2 seed2 s2)
    by (subst s2; apply built_from_run; [exact HG|apply built_from_init]).
  pose proof (on_epoch_end_built H1) as R1.
  pose proof (on_epoch_end_built H2) as R2.
  cbv zeta in R1, R2. rewrite <- Hsum in R2.
  destruct (RandomState _) as [g|err].
  - destruct R1 as (l1 & Hl1 & _ & ->). destruct R2 as (l2 & Hl2 & _ & ->).
    simpl. split; [reflexivity|]. intros _. congruence.
  - rewrite R1, R2. simpl. split; [reflexivity|discriminate].
Qed.

Lemma equal_seed_sums_give_equal_views_witness :
  let s1 := run (G := NumPy.generator) [EpochEnd; GetItem 0]
                (__init__ [10; 11; 12; 13] 2 42 0) in
  let s2 := run (G := NumPy.generator) []
                (__init__ [10; 11; 12; 13] 3 40 3) in
  let s1' := on_epoch_end (G := NumPy.generator) s1 in
  let s2' := on_epoch_end (G := NumPy.generator) s2 in
  42 + _elapsed_epochs (snd s1') = 40 + _elapsed_epochs (snd s2') /\
  fst s1' = Ok tt /\
  _shuffled (snd s1') = _shuffled (snd s2').
Proof.
  cbv zeta.
  assert (Hsum :
    42 + _elapsed_epochs
           (snd (on_epoch_end (G := NumPy.generator)
                   (run (G := NumPy.generator) [EpochEnd; GetItem 0]
                        (__init__ [10; 11; 12; 13] 2 42 0))))
    = 40 + _elapsed_epochs
             (snd (on_epoch_end (G := NumPy.generator)
                     (run (G := NumPy.generator) []
                          (__init__ [10; 11; 12; 13] 3 40 3)))))
    by (vm_compute; reflexivity).
  assert (Hok :
    fst (on_epoch_end (G := NumPy.generator)
           (run (G := NumPy.generator) [EpochEnd; GetItem 0]
                (__init__ [10; 11; 12; 13] 2 42 0)))
    = Ok tt) by (vm_compute; reflexivity).
  split; [exact Hsum|]. split; [exact Hok|].
  destruct equal_seed_sums_give_equal_views as (Hgen & _).
  exact (proj2 (Hgen NumPy.generator NumPyFacts.generator_permutes Z
                     [10; 11; 12; 13] 2 42 0 3 40 3
                     [EpochEnd; GetItem 0] [] Hsum) Hok).
Defined.

(** ** Further properties of the two methods *)

Section MoreSlices.

Variable A : Type.
Implicit Types l : list A.

Lemma py_slice_In l (start stop : Z) (x : A) :
  In x (py_slice l start stop) -> In x l.
Proof.
  unfold py_slice. intros H.
  rewrite <- (firstn_skipn (Z.to_nat (slice_bound (Z.of_nat (length l)) start)) l).
  apply in_or_app. right.
  rewrite <- (firstn_skipn
                (Z.to_nat (slice_bound (Z.of_nat (length l)) stop
                           - slice_bound (Z.of_nat (length l)) start))
                (skipn _ l)).
  apply in_or_app. left. exact H.
Qed.

Lemma py_slice_length_le l (start stop : Z) :
  start <= stop ->
  (length (py_slice l start stop) <= Z.to_nat (stop - start))%nat.
Proof.
  intros Hle. unfold py_slice, slice_bound.
  rewrite length_firstn.
  destruct (Z.ltb_spec start 0), (Z.ltb_spec stop 0); lia.
Qed.

(** A slice whose two bounds are negative. *)
Lemma py_slice_negative l (start stop : Z) :
  start < 0 -> stop < 0 ->
  py_slice l start stop
  = contiguous_slice l
      (Z.to_nat (Z.max 0 (Z.of_nat (length l) + start)))
      (Z.to_nat (Z.max 0 (Z.of_nat (length l) + stop))).
Proof.
  intros Hs He. unfold py_slice, slice_bound, contiguous_slice.
  destruct (Z.ltb_spec start 0); [|lia].
  destruct (Z.ltb_spec stop 0); [|lia].
  rewrite (Z.add_comm start), (Z.add_comm stop).
  f_equal. lia.
Qed.

End MoreSlices.

Lemma run_after_epochs {G : RandomGen} (A : Type) (calls : list call)
  (s : VectorSequence A) :
  run calls s = after_epochs (epoch_ends calls) s.
Proof.
  revert s; induction calls as [|c calls IH]; intros s; [reflexivity|].
  destruct c as [|idx]; cbn [run fold_left do_call epoch_ends].
  - fold (run calls (snd (on_epoch_end s))). rewrite IH.
    unfold after_epochs. rewrite Nat.iter_succ_r. reflexivity.
  - rewrite getitem_state. apply IH.
Qed.

(** X1: the object after any sequence of calls is the object after its
    [on_epoch_end] calls alone: [__getitem__] calls can be dropped from a
    history, and the elapsed-epoch counter is the one at the start plus
    the number of [on_epoch_end] calls, those that raised included. *)
Theorem run_is_epoch_ends_only
  (G : RandomGen) (A : Type) (calls : list call) (s : VectorSequence A) :
  run calls s = after_epochs (epoch_ends calls) s /\
  _elapsed_epochs (run calls s)
  = _elapsed_epochs s + Z.of_nat (epoch_ends calls).
Proof.
  rewrite run_after_epochs. split; [reflexivity|].
  apply after_epochs_elapsed.
Qed.

(** X2: with a positive batch size, [__getitem__ (-1)] never raises and
    never returns the last batch: its slice stops at offset 0, and it
    returns the empty array whatever the view holds. *)
Theorem getitem_minus_one_is_empty
  (G : RandomGen) (HG : ShufflePermutes G)
  (A : Type) (vector : list A) (b seed e : Z) (calls : list call) :
  0 < b ->
  let s := run calls (__init__ vector b seed e) in
  __getitem__ (-1) s = (Ok [], s).
Proof.
  intros Hb s.
  assert (Hs : built_from vector b seed s)
    by (subst s; apply built_from_run; [exact HG|apply built_from_init]).
  destruct Hs as (_ & HB & _ & HN & _).
  rewrite getitem_eq; cbv zeta. rewrite HB, HN.
  assert (Hsteps : 0 <= ceil_div (Z.of_nat (length vector)) b)
    by (apply ceil_div_nonneg; lia).
  destruct (Z.geb_spec (-1) (ceil_div (Z.of_nat (length vector)) b))
    as [Hge|_]; [lia|].
  do 2 f_equal. unfold py_slice, slice_bound.
  replace ((-1 + 1) * b) with 0 by lia.
  destruct (Z.ltb_spec (-1 * b) 0) as [_|Hc]; [|lia].
  cbn [Z.ltb Z.compare].
  replace (Z.to_nat _) with O by lia. reflexivity.
Qed.

Lemma getitem_minus_one_is_empty_witness :
  0 < 3 /\
  let s := run (G := NumPy.generator) [EpochEnd]
               (__init__ [10; 11; 12; 13; 14; 15; 16; 17; 18] 3 42 0) in
  __getitem__ (-1) s = (Ok [], s).
Proof.
  assert (Hb : 0 < 3) by lia.
  split; [exact Hb|].
  exact (@getitem_minus_one_is_empty
           NumPy.generator NumPyFacts.generator_permutes Z
           [10; 11; 12; 13; 14; 15; 16; 17; 18] 3 42 0 [EpochEnd] Hb).
Defined.

(** X3: with a positive batch size, [__getitem__ idx] for [idx <= -2]
    never raises: both bounds of its slice count from the end of the view,
    so it returns the positions from [N + idx * B] up to
    [N + (idx + 1) * B], each cut at 0. That is a full block of B elements
    when [- idx * B <= N], the empty array when [N <= (- idx - 1) * B];
    and when B divides N the full block is the batch of index
    [steps_per_epoch + idx]. *)
Theorem getitem_negative_idx_counts_from_end
  (G : RandomGen) (HG : ShufflePermutes G)
  (A : Type) (vector : list A) (b seed e : Z) (calls : list call) (idx : Z) :
  0 < b ->
  idx <= -2 ->
  let s := run calls (__init__ vector b seed e) in
  let N := Z.of_nat (length vector) in
  let batch :=
    contiguous_slice (_shuffled s)
      (Z.to_nat (Z.max 0 (N + idx * b)))
      (Z.to_nat (Z.max 0 (N + (idx + 1) * b))) in
  __getitem__ idx s = (Ok batch, s) /\
  (- idx * b <= N -> Z.of_nat (length batch) = b) /\
  (N <= (- idx - 1) * b -> batch = []) /\
  (N mod b = 0 -> - idx * b <= N ->
   fst (__getitem__ idx s) = fst (__getitem__ (ceil_div N b + idx) s)).
Proof.
  intros Hb Hidx s N batch.
  assert (Hs : built_from vector b seed s)
    by (subst s; apply built_from_run; [exact HG|apply built_from_init]).
  destruct Hs as (_ & HB & _ & HN & HP).
  assert (Hlen : Z.of_nat (length (_shuffled s)) = N)
    by (subst N; rewrite (Permutation_length HP); reflexivity).
  assert (Hsteps : 0 <= ceil_div N b) by (apply ceil_div_nonneg; lia).
  assert (Hget : __getitem__ idx s = (Ok batch, s)).
  { rewrite getitem_eq; cbv zeta. rewrite HB, HN. fold N.
    destruct (Z.geb_spec idx (ceil_div N b)) as [Hge|_]; [lia|].
    rewrite py_slice_negative by nia. rewrite Hlen. reflexivity. }
  split; [exact Hget|]. split; [|split].
  - intros Hfull. subst batch. rewrite contiguous_slice_length; nia.
  - intros Hout. subst batch. unfold contiguous_slice.
    replace (Z.to_nat (Z.max 0 (N + (idx + 1) * b))) with O by nia.
    reflexivity.
  - intros Hmod Hfull. rewrite Hget. cbn [fst].
    pose proof (Z.div_mod N b ltac:(lia)) as Hdm. rewrite Hmod in Hdm.
    pose proof (ceil_div_covers N Hb) as Hcov.
    assert (Hlast : (ceil_div N b - 1) * b < N)
      by (apply ceil_div_lt; [exact Hb|lia]).
    assert (Hq1 : ceil_div N b - 1 < N / b) by nia.
    assert (Hq2 : N / b <= ceil_div N b) by nia.
    assert (HNb : N = ceil_div N b * b) by nia.
    set (j := ceil_div N b + idx).
    assert (Hj : 0 <= j < ceil_div N b) by (subst j; nia).
    rewrite getitem_eq; cbv zeta. rewrite HB, HN. fold N.
    destruct (Z.geb_spec j (ceil_div N b)) as [Hge|_]; [lia|].
    cbn [fst]. f_equal.
    rewrite py_slice_contiguous by (rewrite ?Hlen; nia).
    rewrite Hlen. subst batch. f_equal; subst j; nia.
Qed.

Lemma getitem_negative_idx_counts_from_end_witness :
  0 < 3 /\ -2 <= -2 /\
  let s := __init__ [10; 11; 12; 13; 14; 15; 16; 17; 18] 3 42 0 in
  __getitem__ (-2) s = (Ok (contiguous_slice (_shuffled s) 3 6), s) /\
  fst (__getitem__ (-2) s) = fst (__getitem__ (ceil_div 9 3 + -2) s).
Proof.
  assert (Hb : 0 < 3) by lia.
  assert (Hidx : -2 <= -2) by lia.
  destruct (@getitem_negative_idx_counts_from_end
              NumPy.generator NumPyFacts.generator_permutes Z
              [10; 11; 12; 13; 14; 15; 16; 17; 18] 3 42 0 [] (-2) Hb Hidx)
    as (Hget & _ & _ & Hsame).
  split; [exact Hb|]. split; [exact Hidx|]. split; [exact Hget|].
  apply Hsame; [reflexivity|vm_compute; discriminate].
Defined.

(** X4: with a positive batch size, whatever the index, a batch that
    [__getitem__] returns has at most B elements, and each of them is an
    element of the vector given to the constructor. *)
Theorem getitem_batch_bounded_and_from_vector
  (G : RandomGen) (HG : ShufflePermutes G)
  (A : Type) (vector : list A) (b seed e : Z) (calls : list call)
  (idx : Z) (batch : list A) :
  0 < b ->
  fst (__getitem__ idx (run calls (__init__ vector b seed e))) = Ok batch ->
  Z.of_nat (length batch) <= b /\
  (forall x : A, In x batch -> In x vector).
Proof.
  intros Hb Hget.
  set (s := run calls (__init__ vector b seed e)) in *.
  assert (Hs : built_from vector b seed s)
    by (subst s; apply built_from_run; [exact HG|apply built_from_init]).
  destruct Hs as (_ & HB & _ & _ & HP).
  rewrite getitem_eq in Hget; cbv zeta in Hget. rewrite HB in Hget.
  destruct (idx >=? _); cbn [fst] in Hget; [discriminate|].
  injection Hget as <-. split.
  - pose proof (@py_slice_length_le A (_shuffled s) (idx * b) ((idx + 1) * b)
                  ltac:(lia)) as Hle.
    replace ((idx + 1) * b - idx * b) with b in Hle by lia. lia.
  - intros x Hx. apply py_slice_In in Hx.
    apply (Permutation_in x (Permutation_sym HP) Hx).
Qed.

Lemma getitem_batch_bounded_and_from_vector_witness :
  0 < 3 /\
  Z.of_nat (length [14; 15; 16]) <= 3 /\
  (forall x : Z, In x [14; 15; 16] ->
                 In x [10; 11; 12; 13; 14; 15; 16; 17; 18; 19]).
Proof.
  assert (Hb : 0 < 3) by lia.
  split; [exact Hb|].
  apply (@getitem_batch_bounded_and_from_vector
           NumPy.generator NumPyFacts.generator_permutes Z
           [10; 11; 12; 13; 14; 15; 16; 17; 18; 19] 3 42 0 [] (-2)
           [14; 15; 16] Hb).
  reflexivity.
Defined.

(** X5: when the vector is not empty and has at most B elements, there is
    one step: [__getitem__ 0] returns the whole current view, and every
    index from 1 on raises. *)
Theorem short_vector_single_batch
  (G : RandomGen) (HG : ShufflePermutes G)
  (A : Type) (vector : list A) (b seed e : Z) (calls : list call) :
  vector <> [] ->
  Z.of_nat (length vector) <= b ->
  let s := run calls (__init__ vector b seed e) in
  fst (steps_per_epoch s) = Ok 1 /\
  __getitem__ 0 s = (Ok (_shuffled s), s) /\
  (forall idx, 1 <= idx ->
     __getitem__ idx s = (Raise (ValueError (getitem_message idx 1)), s)).
Proof.
  intros Hne HNb s.
  assert (HN : 0 < Z.of_nat (length vector))
    by (destruct vector; [congruence|simpl; lia]).
  assert (Hb : 0 < b) by lia.
  assert (Hs : built_from vector b seed s)
    by (subst s; apply built_from_run; [exact HG|apply built_from_init]).
  destruct Hs as (_ & HB & _ & HNs & HP).
  assert (H0 : 0 < ceil_div (Z.of_nat (length vector)) b)
    by (apply ceil_div_lt; lia).
  assert (H1 : ~ 1 < ceil_div (Z.of_nat (length vector)) b).
  { intros H. apply (ceil_div_lt (Z.of_nat (length vector)) 1 Hb) in H. lia. }
  assert (Hsteps : ceil_div (Z.of_nat (length vector)) b = 1) by lia.
  split; [rewrite steps_per_epoch_eq, HB, HNs, Hsteps; reflexivity|].
  split.
  - rewrite getitem_eq; cbv zeta. rewrite HB, HNs, Hsteps.
    cbn [Z.geb Z.compare].
    rewrite py_slice_block by lia. cbn [Z.mul Z.to_nat skipn].
    rewrite firstn_all2; [reflexivity|].
    rewrite <- (Permutation_length HP). lia.
  - intros idx Hidx. rewrite getitem_eq; cbv zeta. rewrite HB, HNs, Hsteps.
    destruct (Z.geb_spec idx 1) as [_|Hlt]; [reflexivity|lia].
Qed.

Lemma short_vector_single_batch_witness :
  [10; 11] <> [] /\ Z.of_nat (length [10; 11]) <= 3 /\
  let s := run (G := NumPy.generator) [EpochEnd] (__init__ [10; 11] 3 42 0) in
  __getitem__ 0 s = (Ok (_shuffled s), s).
Proof.
  assert (Hne : [10; 11] <> []) by discriminate.
  assert (Hle : Z.of_nat (length [10; 11]) <= 3) by (simpl; lia).
  split; [exact Hne|]. split; [exact Hle|].
  exact (proj1 (proj2 (@short_vector_single_batch
                         NumPy.generator NumPyFacts.generator_permutes Z
                         [10; 11] 3 42 0 [EpochEnd] Hne Hle))).
Defined.

(** X6: over a vector of at most one element no call ever changes the
    view: it stays equal to the vector, whatever seeds are used. *)
Theorem one_element_view_is_fixed
  (G : RandomGen) (HG : ShufflePermutes G)
  (A : Type) (vector : list A) (b seed e : Z) (calls : list call) :
  (length vector <= 1)%nat ->
  _shuffled (run calls (__init__ vector b seed e)) = vector.
Proof.
  intros Hlen.
  assert (Hs : built_from vector b seed (run calls (__init__ vector b seed e)))
    by (apply built_from_run; [exact HG|apply built_from_init]).
  destruct Hs as (_ & _ & _ & _ & HP).
  destruct vector as [|x [|y rest]].
  - apply Permutation_nil. exact HP.
  - apply Permutation_length_1_inv. exact HP.
  - simpl in Hlen. lia.
Qed.

Lemma one_element_view_is_fixed_witness :
  (length [10] <= 1)%nat /\
  _shuffled (run (G := NumPy.generator) [EpochEnd; EpochEnd]
                 (__init__ [10] 3 42 0)) = [10].
Proof.
  assert (Hlen : (length [10] <= 1)%nat) by (simpl; lia).
  split; [exact Hlen|].
  exact (@one_element_view_is_fixed
           NumPy.generator NumPyFacts.generator_permutes Z
           [10] 3 42 0 [EpochEnd; EpochEnd] Hlen).
Defined.

(** X7: with numpy's generator, the call of [on_epoch_end] that follows
    [k] earlier ones returns exactly when [seed + elapsed_epochs + k + 1]
    is between 0 and 2**32 - 1; otherwise it raises numpy's [ValueError]
    and changes nothing but the counter. *)
Theorem numpy_on_epoch_end_returns_iff_seed_in_range
  (A : Type) (vector : list A) (b seed e : Z) (k : nat) :
  let s := after_epochs (G := NumPy.generator) k (__init__ vector b seed e) in
  let sd := seed + e + Z.of_nat k + 1 in
  (fst (on_epoch_end (G := NumPy.generator) s) = Ok tt
   <-> 0 <= sd <= 4294967295) /\
  (~ (0 <= sd <= 4294967295) ->
   on_epoch_end (G := NumPy.generator) s
   = (Raise (ValueError "Seed must be between 0 and 2**32 - 1"),
      set_elapsed_epochs (e + Z.of_nat k + 1) s)).
Proof.
  intros s sd.
  assert (Hs : built_from vector b seed s)
    by (subst s; apply built_from_after_epochs;
        [exact NumPyFacts.generator_permutes|apply built_from_init]).
  assert (He : _elapsed_epochs s = e + Z.of_nat k)
    by (subst s; rewrite after_epochs_elapsed; reflexivity).
  pose proof (@on_epoch_end_built A NumPy.generator
                NumPyFacts.generator_permutes vector b seed s Hs) as Hrun.
  cbv zeta in Hrun. rewrite He in Hrun.
  replace (seed + (e + Z.of_nat k + 1)) with sd in Hrun by (subst sd; lia).
  change (@RandomState NumPy.generator sd) with (NumPy.seeding sd) in Hrun.
  unfold NumPy.seeding in Hrun.
  destruct (Z.ltb_spec sd 0) as [Hneg|Hnn]; cbn [orb] in Hrun.
  - rewrite Hrun. cbn [fst]. split; [split; [discriminate|lia]|reflexivity].
  - destruct (Z.ltb_spec 4294967295 sd) as [Hbig|Hok].
    + rewrite Hrun. cbn [fst].
      split; [split; [discriminate|lia]|reflexivity].
    + destruct Hrun as (l & _ & _ & ->). cbn [fst].
      split; [split; [lia|reflexivity]|lia].
Qed.

Lemma numpy_on_epoch_end_returns_iff_seed_in_range_witness :
  fst (on_epoch_end (G := NumPy.generator)
         (after_epochs (G := NumPy.generator) 2 (__init__ [10; 11] 3 (-3) 0)))
  = Ok tt.
Proof.
  apply (proj1 (@numpy_on_epoch_end_returns_iff_seed_in_range
                  Z [10; 11] 3 (-3) 0 2)).
  vm_compute. split; discriminate.
Defined.

(** X8: with a positive batch size, fetching the first [j] batches in
    order, for any [j] up to [steps_per_epoch], succeeds, leaves the
    object as it is, and their concatenation is the first [j * B]
    elements of the current view: a pass stopped part-way has served a
    prefix of the view. *)
Theorem first_batches_are_prefix_of_view
  (G : RandomGen) (HG : ShufflePermutes G)
  (A : Type) (vector : list A) (b seed e : Z) (calls : list call) (j : nat) :
  0 < b ->
  Z.of_nat j <= ceil_div (Z.of_nat (length vector)) b ->
  let s := run calls (__init__ vector b seed e) in
  exists batches : list (list A),
    for_each (@__getitem__ A) (range (Z.of_nat j)) s = (Ok batches, s) /\
    length batches = j /\
    concat batches = firstn (j * Z.to_nat b) (_shuffled s).
Proof.
  intros Hb Hj s.
  assert (Hs : built_from vector b seed s)
    by (subst s; apply built_from_run; [exact HG|apply built_from_init]).
  destruct Hs as (_ & HB & _ & HN & _).
  assert (Hrange : Forall (fun idx => 0 <= idx < Z.of_nat j)
                          (range (Z.of_nat j))).
  { unfold range. apply Forall_forall. intros idx Hin.
    apply in_map_iff in Hin as (i & <- & Hi). apply in_seq in Hi. lia. }
  eexists. split; [|split].
  - apply for_each_getitem. rewrite HB, HN.
    eapply Forall_impl; [|exact Hrange]. simpl; lia.
  - unfold range. rewrite !length_map, length_seq. lia.
  - unfold range. rewrite Nat2Z.id, map_map, HB.
    rewrite (map_ext_in _
               (fun i => firstn (Z.to_nat b)
                           (skipn (i * Z.to_nat b) (_shuffled s)))).
    + apply concat_blocks.
    + intros i _. rewrite py_slice_block by lia. do 2 f_equal. lia.
Qed.

Lemma first_batches_are_prefix_of_view_witness :
  0 < 3 /\ Z.of_nat 2 <= ceil_div (Z.of_nat 10) 3 /\
  let s := run (G := NumPy.generator) [EpochEnd]
               (__init__ [10; 11; 12; 13; 14; 15; 16; 17; 18; 19] 3 42 0) in
  exists batches : list (list Z),
    for_each (@__getitem__ Z) (range (Z.of_nat 2)) s = (Ok batches, s) /\
    concat batches = firstn 6 (_shuffled s).
Proof.
  assert (Hb : 0 < 3) by lia.
  assert (Hj : Z.of_nat 2 <= ceil_div (Z.of_nat 10) 3)
    by (vm_compute; discriminate).
  split; [exact Hb|]. split; [exact Hj|].
  destruct (@first_batches_are_prefix_of_view
              NumPy.generator NumPyFacts.generator_permutes Z
              [10; 11; 12; 13; 14; 15; 16; 17; 18; 19] 3 42 0 [EpochEnd]
              2%nat Hb Hj) as (batches & Hfor & _ & Hcat).
  exists batches. split; [exact Hfor|exact Hcat].
Defined.
